(** * The CAN device console of [src/App.vue]: session controller

    The script part of [App.vue] keeps six reactive cells and one constant
    table, talks to the Rust driver through [invoke] and receives two kinds
    of notifications through [listen].  This file embeds that script:

    - the reactive cells and the baud rate table form the record [App];
    - [invoke] is an action of a small monad [M] that asks a [Driver] for
      its answer and appends the call, with its outcome, to a log;
    - every [async function] of the script is a computation in [M], its
      [try]/[catch] being the case analysis on the driver's answer;
    - the two [listen] callbacks and the two [v-model] bindings of the
      template are plain state transformers;
    - the earlier version of the page, which reports through [alert] and
      [console.error], is embedded in the module [Legacy] and related to
      the current one. *)

From Stdlib Require Import ZArith List String Bool Lia.
From Corelib Require Import PrimFloat.
Import ListNotations.
Open Scope string_scope.
Open Scope Z_scope.
Open Scope list_scope.

(** ** Data *)

(** The numbers the script writes as integer literals (device type and
    index, channels, timing values) and the version numbers the driver
    reports, which the script only stores. *)
Definition number := Z.

(** What the binding [v-model.number] of the number field leaves in
    [canMessage] each time the field changes: [parseFloat] of the text of
    the field, a double, or, when that is [NaN], the text itself.  An
    emptied field gives the empty string. *)
Inductive FieldValue : Type :=
| Num (n : float)
| Raw (text : string).

(** [interface BoardInfo] *)
Record BoardInfo := mkBoardInfo {
  hardware_version : number;
  firmware_version : number;
  serial_number : string
}.

(** One entry of [baudRates]. *)
Record BaudRate := mkBaud {
  rate : string;
  timing0 : number;
  timing1 : number
}.

(** The module-level bindings of the script.  [null] and [undefined] are
    [None].  [baudRates] is a [const] binding of an array object; it is
    kept in the store so that "nothing writes to it" is a statement about
    the functions below and not an artefact of the model.  [canMessage] is
    declared [number | null]; it starts as [null] and afterwards holds
    whatever the binding of the number field stored, which at run time is a
    number or a string. *)
Record App := mkApp {
  errorMessage : option string;
  actionMessage : option string;
  boardInfo : option BoardInfo;
  baudRates : list BaudRate;
  selectedBaud : option BaudRate;
  canData : string;
  canMessage : option FieldValue
}.

Definition set_errorMessage (v : option string) (a : App) : App :=
  mkApp v (actionMessage a) (boardInfo a) (baudRates a) (selectedBaud a)
        (canData a) (canMessage a).

Definition set_actionMessage (v : option string) (a : App) : App :=
  mkApp (errorMessage a) v (boardInfo a) (baudRates a) (selectedBaud a)
        (canData a) (canMessage a).

Definition set_boardInfo (v : option BoardInfo) (a : App) : App :=
  mkApp (errorMessage a) (actionMessage a) v (baudRates a) (selectedBaud a)
        (canData a) (canMessage a).

Definition set_selectedBaud (v : option BaudRate) (a : App) : App :=
  mkApp (errorMessage a) (actionMessage a) (boardInfo a) (baudRates a) v
        (canData a) (canMessage a).

Definition set_canData (v : string) (a : App) : App :=
  mkApp (errorMessage a) (actionMessage a) (boardInfo a) (baudRates a)
        (selectedBaud a) v (canMessage a).

Definition set_canMessage (v : option FieldValue) (a : App) : App :=
  mkApp (errorMessage a) (actionMessage a) (boardInfo a) (baudRates a)
        (selectedBaud a) (canData a) v.

(** ** The command gateway *)

(** The seven commands the script passes to [invoke], with the argument
    object of each; the index is the type of the value the promise
    resolves to ([invoke<BoardInfo>], [response as string], or a response
    that is dropped). *)
Inductive Command : Type -> Type :=
| read_board_info (devType devIndex : number) : Command BoardInfo
| open_can_device (devType devIndex : number) : Command string
| stop_can_device (devType devIndex : number) : Command string
| reconnect_can_device
    (devType devIndex can1 can2 t0 t1 : number) : Command string
| start_receiving_data (devType devIndex canChannel : number) : Command unit
| stop_receiving_data : Command string
| transmit_can_data
    (data : FieldValue) (devType devIndex canChannel : number)
  : Command string.

(** A promise that resolves ([Ok]) or rejects ([Err]); the rejection value
    is represented by the text [String(error)] yields for it. *)
Inductive Result (R : Type) : Type :=
| Ok (response : R)
| Err (error : string).
Arguments Ok {R} response.
Arguments Err {R} error.

Definition succeeded {R} (r : Result R) : bool :=
  match r with Ok _ => true | Err _ => false end.

(** One entry of the gateway log: the command and whether it resolved. *)
Inductive Call : Type :=
| call {R : Type} (cmd : Command R) (ok : bool).

(** The driver behind the gateway: its answer may depend on every call it
    has seen so far. *)
Definition Driver := forall R : Type, list Call -> Command R -> Result R.

(** The whole observable state: the cells and the calls issued so far. *)
Record World := mkWorld {
  app : App;
  gateway_log : list Call
}.

Definition update (f : App -> App) (w : World) : World :=
  mkWorld (f (app w)) (gateway_log w).

(** ** The monad of the script *)

Definition M (A : Type) : Type := Driver -> World -> A * World.

Definition ret {A} (x : A) : M A := fun _ w => (x, w).

Definition bind {A B} (m : M A) (k : A -> M B) : M B :=
  fun d w => let (x, w') := m d w in k x d w'.

Notation "x <- m ;; k" := (bind m (fun x => k))
  (at level 61, m at next level, right associativity).
Notation "m ;; k" := (bind m (fun _ => k))
  (at level 61, right associativity).

(** [await invoke(...)]: ask the driver, log the call with its outcome. *)
Definition invoke {R} (c : Command R) : M (Result R) :=
  fun d w =>
    let r := d R (gateway_log w) c in
    (r, mkWorld (app w) (gateway_log w ++ [call c (succeeded r)])).

(** An assignment to one of the cells. *)
Definition assign (f : App -> App) : M unit :=
  fun _ w => (tt, update f w).

(** Read the cells. *)
Definition get : M App := fun _ w => (app w, w).

(** The state an asynchronous function leaves behind. *)
Definition exec {A} (m : M A) (d : Driver) (w : World) : World :=
  snd (m d w).

(** ** The functions of the script *)

Definition readBoardInfo : M unit :=
  r <- invoke (read_board_info 4 0) ;;
  match r with
  | Ok response => assign (set_boardInfo (Some response))
  | Err error =>
      assign (set_errorMessage (Some ("讀取 Board Info 失敗: " ++ error)%string))
  end.

Definition openCanDevice : M unit :=
  r <- invoke (open_can_device 4 0) ;;
  match r with
  | Ok response =>
      assign (set_errorMessage (Some response)) ;;
      readBoardInfo
  | Err error =>
      assign (set_errorMessage (Some ("開啟 CAN 裝置失敗: " ++ error)%string))
  end.

Definition closeCanDevice : M unit :=
  r <- invoke (stop_can_device 4 0) ;;
  match r with
  | Ok response =>
      assign (set_errorMessage (Some response)) ;;
      assign (set_boardInfo None)
  | Err error =>
      assign (set_errorMessage (Some ("關閉 CAN 裝置失敗: " ++ error)%string))
  end.

Definition reconnectDevice : M unit :=
  a <- get ;;
  match selectedBaud a with
  | None => assign (set_errorMessage (Some "請選擇一個波特率。"))
  | Some b =>
      r <- invoke (reconnect_can_device 4 0 0 1 (timing0 b) (timing1 b)) ;;
      match r with
      | Ok response => assign (set_actionMessage (Some response))
      | Err _ => assign (set_errorMessage (Some "重新連線 CAN 裝置失敗。"))
      end
  end.

Definition startReceivingData : M unit :=
  r <- invoke (start_receiving_data 4 0 0) ;;
  match r with
  | Ok _ => assign (set_actionMessage (Some "開始接收 CAN 資料..."))
  | Err error =>
      assign (set_errorMessage (Some ("開始接收資料失敗: " ++ error)%string))
  end.

Definition stopReceivingData : M unit :=
  r <- invoke stop_receiving_data ;;
  match r with
  | Ok response => assign (set_actionMessage (Some response))
  | Err error =>
      assign (set_errorMessage (Some ("停止接收資料失敗: " ++ error)%string))
  end.

Definition transmitCanData : M unit :=
  a <- get ;;
  match canMessage a with
  | None => assign (set_errorMessage (Some "請輸入要傳送的數據。"))
  | Some data =>
      r <- invoke (transmit_can_data data 4 0 0) ;;
      match r with
      | Ok response => assign (set_actionMessage (Some response))
      | Err error =>
          assign (set_errorMessage (Some ("傳送 CAN 數據失敗: " ++ error)%string))
      end
  end.

(** ** Notifications and form bindings *)

(** [listen("error-message", ...)] *)
Definition on_error_message (payload : string) : App -> App :=
  set_errorMessage (Some payload).

(** [listen("can-data", ...)] *)
Definition on_can_data (payload : string) : App -> App :=
  set_canData payload.

(** [<select v-model="selectedBaud">]: the user picks the [i]-th of the
    options, which are the entries of [baudRates] in order. *)
Definition select_option (i : nat) (a : App) : App :=
  match nth_error (baudRates a) i with
  | Some baud => set_selectedBaud (Some baud) a
  | None => a
  end.

(** [<input v-model.number="canMessage" type="number">]: the field
    changed and the binding stored [v]. *)
Definition input_number (v : FieldValue) : App -> App :=
  set_canMessage (Some v).

(** ** Initial state *)

(** The array literal bound to [baudRates]. *)
Definition baudRates_literal : list BaudRate :=
  [ mkBaud "10 Kbps" 0x31 0x1C;
    mkBaud "20 Kbps" 0x18 0x1C;
    mkBaud "40 Kbps" 0x87 0xFF;
    mkBaud "50 Kbps" 0x09 0x1C;
    mkBaud "80 Kbps" 0x83 0xFF;
    mkBaud "100 Kbps" 0x04 0x1C;
    mkBaud "125 Kbps" 0x03 0x1C;
    mkBaud "200 Kbps" 0x81 0xFA;
    mkBaud "250 Kbps" 0x01 0x1C;
    mkBaud "400 Kbps" 0x80 0xFA;
    mkBaud "500 Kbps" 0x00 0x1C;
    mkBaud "666 Kbps" 0x80 0xB6;
    mkBaud "800 Kbps" 0x00 0x16;
    mkBaud "1000 Kbps" 0x00 0x14;
    mkBaud "33.33 Kbps" 0x09 0x6F;
    mkBaud "66.66 Kbps" 0x04 0x6F;
    mkBaud "83.33 Kbps" 0x03 0x6F ].

(** The cells as the script initialises them; [selectedBaud] is
    [baudRates.find((b) => b.rate === "250 Kbps")]. *)
Definition init_app : App :=
  mkApp None None None baudRates_literal
        (find (fun b => String.eqb (rate b) "250 Kbps") baudRates_literal)
        "" None.

Definition init_world : World := mkWorld init_app [].

(** ** Everything that can happen to the page *)

(** The seven buttons, named after the operation each triggers. *)
Inductive Operation : Type :=
| OpOpen | OpClose | OpReadIdentity | OpReconfigure
| OpStartReceiving | OpStopReceiving | OpTransmit.

Definition handler (o : Operation) : M unit :=
  match o with
  | OpOpen => openCanDevice
  | OpClose => closeCanDevice
  | OpReadIdentity => readBoardInfo
  | OpReconfigure => reconnectDevice
  | OpStartReceiving => startReceivingData
  | OpStopReceiving => stopReceivingData
  | OpTransmit => transmitCanData
  end.

Inductive Action : Type :=
| Click (o : Operation)
| ErrorMessage (payload : string)
| CanData (payload : string)
| SelectBaud (i : nat)
| InputNumber (v : FieldValue).

Definition step (d : Driver) (w : World) (a : Action) : World :=
  match a with
  | Click o => exec (handler o) d w
  | ErrorMessage payload => update (on_error_message payload) w
  | CanData payload => update (on_can_data payload) w
  | SelectBaud i => update (select_option i) w
  | InputNumber v => update (input_number v) w
  end.

(** A session: the actions folded in order, each foreground call awaited
    before the next action is taken. *)
Definition run (d : Driver) (w : World) (actions : list Action) : World :=
  fold_left (step d) actions w.

(** ** The phase of the specification

    The script keeps no phase variable.  The phase the specification
    speaks of is read off the gateway log with the rows of its transition
    table (section 4.1): a call that resolved moves the phase as its row
    says, and every other call leaves it where it was. *)
Inductive Phase : Type := Closed | Open | Receiving.

Definition spec_transition (p : Phase) (c : Call) : Phase :=
  match c with
  | call cmd true =>
      match cmd, p with
      | open_can_device _ _, Closed => Open
      | stop_can_device _ _, _ => Closed
      | start_receiving_data _ _ _, Open => Receiving
      | stop_receiving_data, Receiving => Open
      | _, _ => p
      end
  | call _ false => p
  end.

Definition spec_phase (log : list Call) : Phase :=
  fold_left spec_transition log Closed.

(** The [read_board_info] calls of a log. *)
Definition is_read_board_info (c : Call) : bool :=
  match c with
  | call (read_board_info _ _) _ => true
  | call _ _ => false
  end.

Definition count_reads (log : list Call) : nat :=
  List.length (filter is_read_board_info log).

(** ** Three drivers to run the script against *)

(** Every command resolves. *)
Definition driver_fine : Driver :=
  fun R _ c =>
    match c in Command T return Result T with
    | read_board_info _ _ => Ok (mkBoardInfo 1 2 "ABC123")
    | open_can_device _ _ => Ok "opened"
    | stop_can_device _ _ => Ok "stopped"
    | reconnect_can_device _ _ _ _ _ _ => Ok "reconnected"
    | start_receiving_data _ _ _ => Ok tt
    | stop_receiving_data => Ok "receiving stopped"
    | transmit_can_data _ _ _ _ => Ok "sent"
    end.

(** The device opens but does not answer the identity read. *)
Definition driver_mute : Driver :=
  fun R log c =>
    match c in Command T return Result T with
    | read_board_info _ _ => Err "no reply"
    | c' => driver_fine _ log c'
    end.

(** Every command is rejected. *)
Definition driver_down : Driver :=
  fun _ _ _ => Err "device not found".

(** ** Two states to run the script from besides the initial one *)

(** A session that is receiving and has seen one frame. *)
Definition receiving_world : World :=
  run driver_fine init_world
      [Click OpOpen; Click OpStartReceiving; CanData "ID=123 DATA=0102"].

(** An open session whose selection was emptied. *)
Definition unselected_world : World :=
  update (set_selectedBaud None) (run driver_fine init_world [Click OpOpen]).

(** ** Observations on a session *)

(** The fixed part of the argument object of a call: device type 4,
    device index 0, and where they occur channel 0 and the channel pair
    (0, 1). *)
Definition addressed (c : Call) : bool :=
  match c with
  | call cmd _ =>
      match cmd with
      | read_board_info t i => (t =? 4) && (i =? 0)
      | open_can_device t i => (t =? 4) && (i =? 0)
      | stop_can_device t i => (t =? 4) && (i =? 0)
      | reconnect_can_device t i c1 c2 _ _ =>
          (t =? 4) && (i =? 0) && (c1 =? 0) && (c2 =? 1)
      | start_receiving_data t i ch => (t =? 4) && (i =? 0) && (ch =? 0)
      | stop_receiving_data => true
      | transmit_can_data _ t i ch => (t =? 4) && (i =? 0) && (ch =? 0)
      end
  end.

(** The timing pair a call carries, if it is a [reconnect_can_device]. *)
Definition timing_of (c : Call) : option (number * number) :=
  match c with
  | call cmd _ =>
      match cmd with
      | reconnect_can_device _ _ _ _ t0 t1 => Some (t0, t1)
      | _ => None
      end
  end.

(** Whether the log says an identity is on display: the last resolved
    call among the identity reads and the closes is a read. *)
Definition identity_step (known : bool) (c : Call) : bool :=
  match c with
  | call cmd ok =>
      match cmd with
      | read_board_info _ _ => if ok then true else known
      | stop_can_device _ _ => if ok then false else known
      | _ => known
      end
  end.

Definition identity_known (log : list Call) : bool :=
  fold_left identity_step log false.

Definition is_some {A} (o : option A) : bool :=
  match o with Some _ => true | None => false end.

(** The kinds of actions. *)
Definition is_click (a : Action) : bool :=
  match a with Click _ => true | _ => false end.

Definition is_select (a : Action) : bool :=
  match a with SelectBaud _ => true | _ => false end.

Definition is_input (a : Action) : bool :=
  match a with InputNumber _ => true | _ => false end.

Definition clicks (actions : list Action) : nat :=
  List.length (filter is_click actions).

Definition is_frame (a : Action) : bool :=
  match a with CanData _ => true | _ => false end.

(** Whether the timing pair of a call, if it carries one, is the pair of
    an entry of the table [tbl] and consists of two bytes. *)
Definition timing_listed (tbl : list BaudRate) (c : Call) : bool :=
  match timing_of c with
  | Some (t0, t1) =>
      existsb (fun b => (timing0 b =? t0) && (timing1 b =? t1)) tbl
      && (0 <=? t0) && (t0 <=? 0xFF) && (0 <=? t1) && (t1 <=? 0xFF)
  | None => true
  end.

(** The table is the literal and the selection is one of its entries. *)
Definition selection_ok (w : World) : Prop :=
  baudRates (app w) = baudRates_literal /\
  exists b, selectedBaud (app w) = Some b /\ In b baudRates_literal.

(** * The earlier page

    The second source file is an earlier version of the same page.  It has
    no message cells and no transmission: it reports through [alert] and
    [console.error], and its [open_can_device] call names the channel
    pair.  The alerts shown and the console lines written are kept in the
    world, in order. *)
Module Legacy.

Record Page := mkPage {
  boardInfo : option BoardInfo;
  baudRates : list BaudRate;
  selectedBaud : option BaudRate;
  canData : string
}.

Inductive Command : Type -> Type :=
| read_board_info (devType devIndex : number) : Command BoardInfo
| open_can_device (devType devIndex can1 can2 : number) : Command string
| stop_can_device (devType devIndex : number) : Command string
| reconnect_can_device
    (devType devIndex can1 can2 t0 t1 : number) : Command string
| start_receiving_data (devType devIndex canChannel : number) : Command unit
| stop_receiving_data : Command string.

Inductive Call : Type :=
| call {R : Type} (cmd : Command R) (ok : bool).

Definition Driver := forall R : Type, list Call -> Command R -> Result R.

Record World := mkWorld {
  page : Page;
  alerts : list string;
  console : list (string * string);
  gateway_log : list Call
}.

(** [await invoke(...)] *)
Definition invoke {R} (c : Command R) (d : Driver) (w : World)
  : Result R * World :=
  let r := d R (gateway_log w) c in
  (r, mkWorld (page w) (alerts w) (console w)
              (gateway_log w ++ [call c (succeeded r)])).

(** [alert(text)] *)
Definition alert (text : string) (w : World) : World :=
  mkWorld (page w) (alerts w ++ [text]) (console w) (gateway_log w).

(** [console.error(label, error)] *)
Definition console_error (label error : string) (w : World) : World :=
  mkWorld (page w) (alerts w) (console w ++ [(label, error)])
          (gateway_log w).

Definition set_boardInfo (v : option BoardInfo) (w : World) : World :=
  mkWorld (mkPage v (baudRates (page w)) (selectedBaud (page w))
                  (canData (page w)))
          (alerts w) (console w) (gateway_log w).

Definition set_selectedBaud (v : option BaudRate) (w : World) : World :=
  mkWorld (mkPage (boardInfo (page w)) (baudRates (page w)) v
                  (canData (page w)))
          (alerts w) (console w) (gateway_log w).

Definition set_canData (v : string) (w : World) : World :=
  mkWorld (mkPage (boardInfo (page w)) (baudRates (page w))
                  (selectedBaud (page w)) v)
          (alerts w) (console w) (gateway_log w).

Definition readBoardInfo (d : Driver) (w : World) : World :=
  let (r, w1) := invoke (read_board_info 4 0) d w in
  match r with
  | Ok response => set_boardInfo (Some response) w1
  | Err error =>
      alert "讀取 Board Info 失敗。"
            (console_error "讀取 Board Info 錯誤:" error w1)
  end.

Definition openCanDevice (d : Driver) (w : World) : World :=
  let (r, w1) := invoke (open_can_device 4 0 0 1) d w in
  match r with
  | Ok response => readBoardInfo d (alert response w1)
  | Err error =>
      alert "開啟 CAN 裝置失敗。"
            (console_error "開啟 CAN 裝置錯誤:" error w1)
  end.

Definition closeCanDevice (d : Driver) (w : World) : World :=
  let (r, w1) := invoke (stop_can_device 4 0) d w in
  match r with
  | Ok response => set_boardInfo None (alert response w1)
  | Err error =>
      alert "關閉 CAN 裝置失敗。"
            (console_error "關閉 CAN 裝置錯誤:" error w1)
  end.

Definition reconnectDevice (d : Driver) (w : World) : World :=
  match selectedBaud (page w) with
  | None => alert "請選擇一個波特率。" w
  | Some b =>
      let (r, w1) :=
        invoke (reconnect_can_device 4 0 0 1 (timing0 b) (timing1 b)) d w in
      match r with
      | Ok response => alert response w1
      | Err error =>
          alert "重新連線 CAN 裝置失敗。"
                (console_error "重新連線 CAN 裝置錯誤:" error w1)
      end
  end.

Definition startReceivingData (d : Driver) (w : World) : World :=
  let (r, w1) := invoke (start_receiving_data 4 0 0) d w in
  match r with
  | Ok _ => w1
  | Err error =>
      alert "開始接收資料失敗。"
            (console_error "開始接收資料錯誤:" error w1)
  end.

Definition stopReceivingData (d : Driver) (w : World) : World :=
  let (r, w1) := invoke stop_receiving_data d w in
  match r with
  | Ok response => alert response w1
  | Err error =>
      alert "停止接收資料失敗。"
            (console_error "停止接收資料錯誤:" error w1)
  end.

(** [listen("can-data", ...)] *)
Definition on_can_data (payload : string) (w : World) : World :=
  set_canData payload w.

(** [<select v-model="selectedBaud">] *)
Definition select_option (i : nat) (w : World) : World :=
  match nth_error (baudRates (page w)) i with
  | Some baud => set_selectedBaud (Some baud) w
  | None => w
  end.

Definition init_world : World :=
  mkWorld
    (mkPage None baudRates_literal
            (find (fun b => String.eqb (rate b) "250 Kbps")
                  baudRates_literal)
            "")
    [] [] [].

(** The six buttons. *)
Inductive Operation : Type :=
| OpOpen | OpClose | OpReadIdentity | OpReconfigure
| OpStartReceiving | OpStopReceiving.

Definition handler (o : Operation) : Driver -> World -> World :=
  match o with
  | OpOpen => openCanDevice
  | OpClose => closeCanDevice
  | OpReadIdentity => readBoardInfo
  | OpReconfigure => reconnectDevice
  | OpStartReceiving => startReceivingData
  | OpStopReceiving => stopReceivingData
  end.

Inductive Action : Type :=
| Click (o : Operation)
| CanData (payload : string)
| SelectBaud (i : nat).

Definition step (d : Driver) (w : World) (a : Action) : World :=
  match a with
  | Click o => handler o d w
  | CanData payload => on_can_data payload w
  | SelectBaud i => select_option i w
  end.

Definition run (d : Driver) (w : World) (actions : list Action) : World :=
  fold_left (step d) actions w.

(** The texts the page alerts when something fails. *)
Definition failure_texts : list string :=
  [ "讀取 Board Info 失敗。"; "開啟 CAN 裝置失敗。"; "關閉 CAN 裝置失敗。";
    "請選擇一個波特率。"; "重新連線 CAN 裝置失敗。";
    "開始接收資料失敗。"; "停止接收資料失敗。" ].

(** Calls that were rejected. *)
Definition rejected (c : Call) : bool :=
  match c with call _ ok => negb ok end.

(** Calls after which the page alerts: all but an identity read or a
    start of the reception that resolved. *)
Definition alerting (c : Call) : bool :=
  match c with
  | call cmd ok =>
      match cmd with
      | read_board_info _ _ => negb ok
      | start_receiving_data _ _ _ => negb ok
      | _ => true
      end
  end.

End Legacy.

(** ** From the earlier page to the current one *)

(** The current command for an earlier one: [open_can_device] lost the
    channel pair, the others are the same. *)
Definition forget {R} (c : Legacy.Command R) : Command R :=
  match c in Legacy.Command T return Command T with
  | Legacy.read_board_info t i => read_board_info t i
  | Legacy.open_can_device t i _ _ => open_can_device t i
  | Legacy.stop_can_device t i => stop_can_device t i
  | Legacy.reconnect_can_device t i c1 c2 t0 t1 =>
      reconnect_can_device t i c1 c2 t0 t1
  | Legacy.start_receiving_data t i ch => start_receiving_data t i ch
  | Legacy.stop_receiving_data => stop_receiving_data
  end.

Definition forget_call (c : Legacy.Call) : Call :=
  match c with Legacy.call cmd ok => call (forget cmd) ok end.

(** A driver of the current page, asked by the earlier page. *)
Definition legacy_driver (d : Driver) : Legacy.Driver :=
  fun R log c => d R (map forget_call log) (forget c).

Definition current_operation (o : Legacy.Operation) : Operation :=
  match o with
  | Legacy.OpOpen => OpOpen
  | Legacy.OpClose => OpClose
  | Legacy.OpReadIdentity => OpReadIdentity
  | Legacy.OpReconfigure => OpReconfigure
  | Legacy.OpStartReceiving => OpStartReceiving
  | Legacy.OpStopReceiving => OpStopReceiving
  end.

Definition current_action (a : Legacy.Action) : Action :=
  match a with
  | Legacy.Click o => Click (current_operation o)
  | Legacy.CanData payload => CanData payload
  | Legacy.SelectBaud i => SelectBaud i
  end.

(** The two pages agree on the cells they share and on the calls issued. *)
Definition agree (lw : Legacy.World) (w : World) : Prop :=
  Legacy.boardInfo (Legacy.page lw) = boardInfo (app w) /\
  Legacy.baudRates (Legacy.page lw) = baudRates (app w) /\
  Legacy.selectedBaud (Legacy.page lw) = selectedBaud (app w) /\
  Legacy.canData (Legacy.page lw) = canData (app w) /\
  map forget_call (Legacy.gateway_log lw) = gateway_log w.

(** * Properties *)

(** ** What each function leaves behind

    One equation per function: the world after the call, by cases on what
    the driver answered. *)

Lemma exec_readBoardInfo (d : Driver) (w : World) :
  exec readBoardInfo d w =
  match d _ (gateway_log w) (read_board_info 4 0) with
  | Ok response =>
      mkWorld (set_boardInfo (Some response) (app w))
              (gateway_log w ++ [call (read_board_info 4 0) true])
  | Err error =>
      mkWorld (set_errorMessage
                 (Some ("讀取 Board Info 失敗: " ++ error)%string) (app w))
              (gateway_log w ++ [call (read_board_info 4 0) false])
  end.
Proof.
  unfold exec, readBoardInfo, bind, invoke; simpl.
  destruct (d BoardInfo (gateway_log w) (read_board_info 4 0)); reflexivity.
Qed.

Lemma exec_openCanDevice (d : Driver) (w : World) :
  exec openCanDevice d w =
  match d _ (gateway_log w) (open_can_device 4 0) with
  | Ok response =>
      exec readBoardInfo d
           (mkWorld (set_errorMessage (Some response) (app w))
                    (gateway_log w ++ [call (open_can_device 4 0) true]))
  | Err error =>
      mkWorld (set_errorMessage
                 (Some ("開啟 CAN 裝置失敗: " ++ error)%string) (app w))
              (gateway_log w ++ [call (open_can_device 4 0) false])
  end.
Proof.
  unfold exec, openCanDevice, bind, invoke; simpl.
  destruct (d string (gateway_log w) (open_can_device 4 0)); reflexivity.
Qed.

Lemma exec_closeCanDevice (d : Driver) (w : World) :
  exec closeCanDevice d w =
  match d _ (gateway_log w) (stop_can_device 4 0) with
  | Ok response =>
      mkWorld (set_boardInfo None (set_errorMessage (Some response) (app w)))
              (gateway_log w ++ [call (stop_can_device 4 0) true])
  | Err error =>
      mkWorld (set_errorMessage
                 (Some ("關閉 CAN 裝置失敗: " ++ error)%string) (app w))
              (gateway_log w ++ [call (stop_can_device 4 0) false])
  end.
Proof.
  unfold exec, closeCanDevice, bind, invoke; simpl.
  destruct (d string (gateway_log w) (stop_can_device 4 0)); reflexivity.
Qed.

Lemma exec_reconnectDevice (d : Driver) (w : World) :
  exec reconnectDevice d w =
  match selectedBaud (app w) with
  | None => update (set_errorMessage (Some "請選擇一個波特率。")) w
  | Some b =>
      let c := reconnect_can_device 4 0 0 1 (timing0 b) (timing1 b) in
      match d _ (gateway_log w) c with
      | Ok response =>
          mkWorld (set_actionMessage (Some response) (app w))
                  (gateway_log w ++ [call c true])
      | Err _ =>
          mkWorld (set_errorMessage (Some "重新連線 CAN 裝置失敗。") (app w))
                  (gateway_log w ++ [call c false])
      end
  end.
Proof.
  unfold exec, reconnectDevice, bind, invoke, get; simpl.
  destruct (selectedBaud (app w)) as [b|]; [|reflexivity]; simpl.
  destruct (d string (gateway_log w) _); reflexivity.
Qed.

Lemma exec_startReceivingData (d : Driver) (w : World) :
  exec startReceivingData d w =
  match d _ (gateway_log w) (start_receiving_data 4 0 0) with
  | Ok _ =>
      mkWorld (set_actionMessage (Some "開始接收 CAN 資料...") (app w))
              (gateway_log w ++ [call (start_receiving_data 4 0 0) true])
  | Err error =>
      mkWorld (set_errorMessage
                 (Some ("開始接收資料失敗: " ++ error)%string) (app w))
              (gateway_log w ++ [call (start_receiving_data 4 0 0) false])
  end.
Proof.
  unfold exec, startReceivingData, bind, invoke; simpl.
  destruct (d unit (gateway_log w) (start_receiving_data 4 0 0));
    reflexivity.
Qed.

Lemma exec_stopReceivingData (d : Driver) (w : World) :
  exec stopReceivingData d w =
  match d _ (gateway_log w) stop_receiving_data with
  | Ok response =>
      mkWorld (set_actionMessage (Some response) (app w))
              (gateway_log w ++ [call stop_receiving_data true])
  | Err error =>
      mkWorld (set_errorMessage
                 (Some ("停止接收資料失敗: " ++ error)%string) (app w))
              (gateway_log w ++ [call stop_receiving_data false])
  end.
Proof.
  unfold exec, stopReceivingData, bind, invoke; simpl.
  destruct (d string (gateway_log w) stop_receiving_data); reflexivity.
Qed.

Lemma exec_transmitCanData (d : Driver) (w : World) :
  exec transmitCanData d w =
  match canMessage (app w) with
  | None => update (set_errorMessage (Some "請輸入要傳送的數據。")) w
  | Some data =>
      let c := transmit_can_data data 4 0 0 in
      match d _ (gateway_log w) c with
      | Ok response =>
          mkWorld (set_actionMessage (Some response) (app w))
                  (gateway_log w ++ [call c true])
      | Err error =>
          mkWorld (set_errorMessage
                     (Some ("傳送 CAN 數據失敗: " ++ error)%string) (app w))
                  (gateway_log w ++ [call c false])
      end
  end.
Proof.
  unfold exec, transmitCanData, bind, invoke, get; simpl.
  destruct (canMessage (app w)) as [data|]; [|reflexivity]; simpl.
  destruct (d string (gateway_log w) _); reflexivity.
Qed.

(** ** The phase and the read counter along the log *)

Lemma spec_phase_snoc (log : list Call) (c : Call) :
  spec_phase (log ++ [c]) = spec_transition (spec_phase log) c.
Proof. unfold spec_phase. rewrite fold_left_app. reflexivity. Qed.

Lemma count_reads_snoc (log : list Call) (c : Call) :
  count_reads (log ++ [c]) =
  (count_reads log + (if is_read_board_info c then 1 else 0))%nat.
Proof.
  unfold count_reads. rewrite filter_app, length_app. simpl.
  destruct (is_read_board_info c); reflexivity.
Qed.

Lemma snoc_neq {A} (l : list A) (x : A) : l ++ [x] <> l.
Proof.
  intro H. apply (f_equal (@List.length A)) in H.
  rewrite length_app in H. simpl in H. lia.
Qed.

(** Every phase occurs: the session that opens the device, starts the
    reception and closes again passes through all three. *)
Lemma phases_inhabited :
  spec_phase (gateway_log init_world) = Closed /\
  spec_phase (gateway_log (run driver_fine init_world [Click OpOpen])) = Open /\
  spec_phase (gateway_log
    (run driver_fine init_world [Click OpOpen; Click OpStartReceiving]))
  = Receiving /\
  spec_phase (gateway_log
    (run driver_fine init_world
         [Click OpOpen; Click OpStartReceiving; Click OpClose]))
  = Closed.
Proof. repeat split. Qed.

(** ** Operations while the session is closed *)

(** C1, as stated, fails: in the initial state no device was opened, the
    phase is [Closed], and the identity read still goes to the gateway; the
    call is logged, it resolves, and no error text is set. *)
Lemma readBoardInfo_while_closed_reaches_gateway :
  spec_phase (gateway_log init_world) = Closed /\
  gateway_log (exec readBoardInfo driver_fine init_world)
  = [call (read_board_info 4 0) true] /\
  gateway_log (exec readBoardInfo driver_fine init_world)
  <> gateway_log init_world /\
  errorMessage (app (exec readBoardInfo driver_fine init_world)) = None.
Proof. repeat split. discriminate. Qed.

(** C1, amended: no operation looks at the phase.  In every state, the
    closed ones included, the identity read, the start and the stop of the
    reception each issue exactly one gateway call.  Reconfiguring fails
    locally, with no gateway call and with the validation text in
    [errorMessage] as the only change, exactly when no profile is
    selected, and otherwise issues exactly one gateway call.  Transmitting
    fails locally in the same way when the payload cell is [null], and
    issues exactly one gateway call when the cell holds a number. *)
Theorem local_failure_only_without_input (d : Driver) (w : World) :
  gateway_log (exec readBoardInfo d w)
  = gateway_log w ++
    [call (read_board_info 4 0)
          (succeeded (d _ (gateway_log w) (read_board_info 4 0)))] /\
  gateway_log (exec startReceivingData d w)
  = gateway_log w ++
    [call (start_receiving_data 4 0 0)
          (succeeded (d _ (gateway_log w) (start_receiving_data 4 0 0)))] /\
  gateway_log (exec stopReceivingData d w)
  = gateway_log w ++
    [call stop_receiving_data
          (succeeded (d _ (gateway_log w) stop_receiving_data))] /\
  (selectedBaud (app w) = None ->
   exec reconnectDevice d w
   = update (set_errorMessage (Some "請選擇一個波特率。")) w) /\
  (forall b, selectedBaud (app w) = Some b ->
   gateway_log (exec reconnectDevice d w)
   = gateway_log w ++
     [call (reconnect_can_device 4 0 0 1 (timing0 b) (timing1 b))
           (succeeded (d _ (gateway_log w)
              (reconnect_can_device 4 0 0 1 (timing0 b) (timing1 b))))]) /\
  (canMessage (app w) = None ->
   exec transmitCanData d w
   = update (set_errorMessage (Some "請輸入要傳送的數據。")) w) /\
  (forall n, canMessage (app w) = Some (Num n) ->
   gateway_log (exec transmitCanData d w)
   = gateway_log w ++
     [call (transmit_can_data (Num n) 4 0 0)
           (succeeded (d _ (gateway_log w)
                         (transmit_can_data (Num n) 4 0 0)))]).
Proof.
  repeat split.
  - rewrite exec_readBoardInfo. now destruct (d _ _ _).
  - rewrite exec_startReceivingData. now destruct (d _ _ _).
  - rewrite exec_stopReceivingData. now destruct (d _ _ _).
  - intros H. rewrite exec_reconnectDevice, H. reflexivity.
  - intros b H. rewrite exec_reconnectDevice, H. simpl.
    now destruct (d _ _ _).
  - intros H. rewrite exec_transmitCanData, H. reflexivity.
  - intros data H. rewrite exec_transmitCanData, H. simpl.
    now destruct (d _ _ _).
Qed.

(** The amended C1 at the initial state, which is closed: the profile
    "250 Kbps" is selected, so reconfiguring reaches the gateway, and the
    payload cell is still [null], so transmitting fails locally. *)
Lemma local_failure_only_without_input_witness :
  spec_phase (gateway_log init_world) = Closed /\
  gateway_log (exec reconnectDevice driver_fine init_world)
  = [call (reconnect_can_device 4 0 0 1 0x01 0x1C) true] /\
  exec transmitCanData driver_fine init_world
  = update (set_errorMessage (Some "請輸入要傳送的數據。")) init_world.
Proof.
  destruct (local_failure_only_without_input driver_fine init_world)
    as (_ & _ & _ & _ & Hreconf & Hnone & _).
  split; [reflexivity|]. split.
  - exact (Hreconf (mkBaud "250 Kbps" 0x01 0x1C) eq_refl).
  - exact (Hnone eq_refl).
Defined.

(** ** Where the status text of a resolved call goes *)

(** C2 at its scenario: the session starts closed, [open_can_device]
    resolves with "opened" and the identity read with [{1, 2, "ABC123"}].
    The status text ends up in [errorMessage]; [actionMessage] stays
    empty.  Closing afterwards does the same with the text of
    [stop_can_device]. *)
Theorem open_status_lands_in_errorMessage :
  errorMessage (app (exec openCanDevice driver_fine init_world))
  = Some "opened" /\
  actionMessage (app (exec openCanDevice driver_fine init_world)) = None /\
  boardInfo (app (exec openCanDevice driver_fine init_world))
  = Some (mkBoardInfo 1 2 "ABC123") /\
  spec_phase (gateway_log (exec openCanDevice driver_fine init_world))
  = Open /\
  errorMessage (app (run driver_fine init_world [Click OpOpen; Click OpClose]))
  = Some "stopped" /\
  actionMessage (app (run driver_fine init_world [Click OpOpen; Click OpClose]))
  = None.
Proof. repeat split. Qed.

(** The other functions that receive a status text put it in
    [actionMessage] and leave [errorMessage] alone. *)
Lemma status_text_of_the_other_calls (d : Driver) (w : World) (s : string) :
  (forall b, selectedBaud (app w) = Some b ->
     d _ (gateway_log w)
       (reconnect_can_device 4 0 0 1 (timing0 b) (timing1 b)) = Ok s ->
     app (exec reconnectDevice d w) = set_actionMessage (Some s) (app w)) /\
  (d _ (gateway_log w) stop_receiving_data = Ok s ->
     app (exec stopReceivingData d w) = set_actionMessage (Some s) (app w)) /\
  (forall data, canMessage (app w) = Some data ->
     d _ (gateway_log w) (transmit_can_data data 4 0 0) = Ok s ->
     app (exec transmitCanData d w) = set_actionMessage (Some s) (app w)).
Proof.
  repeat split.
  - intros b Hb H. rewrite exec_reconnectDevice, Hb. simpl. now rewrite H.
  - intros H. rewrite exec_stopReceivingData. now rewrite H.
  - intros data Hm H. rewrite exec_transmitCanData, Hm. simpl. now rewrite H.
Qed.

(** ** Closing *)

(** C3, as stated, fails: closing a receiving session resolves, the phase
    becomes [Closed] and the identity is dropped, but the last frame is
    still there. *)
Lemma close_keeps_last_frame :
  spec_phase (gateway_log receiving_world) = Receiving /\
  spec_phase (gateway_log (exec closeCanDevice driver_fine receiving_world))
  = Closed /\
  boardInfo (app (exec closeCanDevice driver_fine receiving_world)) = None /\
  canData (app (exec closeCanDevice driver_fine receiving_world))
  = "ID=123 DATA=0102" /\
  canData (app (exec closeCanDevice driver_fine receiving_world))
  <> canData init_app.
Proof. repeat split. discriminate. Qed.

(** C3, amended: for every prior state, hence every prior phase, a close
    whose [stop_can_device] call resolves clears the identity and brings
    the phase to [Closed]; the last frame is left as it was. *)
Theorem close_clears_identity_only
  (d : Driver) (w : World) (s : string)
  (Hstop : d _ (gateway_log w) (stop_can_device 4 0) = Ok s) :
  boardInfo (app (exec closeCanDevice d w)) = None /\
  spec_phase (gateway_log (exec closeCanDevice d w)) = Closed /\
  canData (app (exec closeCanDevice d w)) = canData (app w).
Proof.
  rewrite exec_closeCanDevice, Hstop. simpl.
  rewrite spec_phase_snoc. simpl.
  repeat split.
Qed.

Lemma close_clears_identity_only_witness :
  boardInfo (app receiving_world) = Some (mkBoardInfo 1 2 "ABC123") /\
  boardInfo (app (exec closeCanDevice driver_fine receiving_world)) = None /\
  spec_phase (gateway_log (exec closeCanDevice driver_fine receiving_world))
  = Closed /\
  canData (app (exec closeCanDevice driver_fine receiving_world))
  = canData (app receiving_world).
Proof.
  split; [reflexivity|].
  exact (close_clears_identity_only driver_fine receiving_world "stopped"
           eq_refl).
Defined.

(** ** Opening and the identity read that follows *)

(** C4: when [open_can_device] resolves, the log grows by that call and by
    exactly one [read_board_info] call.  If the read is then rejected with
    [e], the phase is the one the resolved open led to ([Open], unless the
    session was already receiving), an absent identity is still absent, and
    [errorMessage] holds the failure text of the read. *)
Theorem open_reads_identity_once
  (d : Driver) (w : World) (s : string)
  (Hopen : d _ (gateway_log w) (open_can_device 4 0) = Ok s) :
  gateway_log (exec openCanDevice d w)
  = gateway_log w ++
    [call (open_can_device 4 0) true;
     call (read_board_info 4 0)
          (succeeded (d _ (gateway_log w ++ [call (open_can_device 4 0) true])
                        (read_board_info 4 0)))] /\
  count_reads (gateway_log (exec openCanDevice d w))
  = S (count_reads (gateway_log w)) /\
  forall e,
    d _ (gateway_log w ++ [call (open_can_device 4 0) true])
      (read_board_info 4 0) = Err e ->
    spec_phase (gateway_log (exec openCanDevice d w))
    = spec_phase (gateway_log w ++ [call (open_can_device 4 0) true]) /\
    (spec_phase (gateway_log w) <> Receiving ->
     spec_phase (gateway_log (exec openCanDevice d w)) = Open) /\
    (boardInfo (app w) = None ->
     boardInfo (app (exec openCanDevice d w)) = None) /\
    errorMessage (app (exec openCanDevice d w))
    = Some ("讀取 Board Info 失敗: " ++ e)%string.
Proof.
  rewrite exec_openCanDevice, Hopen, exec_readBoardInfo. simpl.
  set (after_open := gateway_log w ++ [call (open_can_device 4 0) true]).
  assert (Hlog : forall ok,
             after_open ++ [call (read_board_info 4 0) ok]
             = gateway_log w ++
               [call (open_can_device 4 0) true;
                call (read_board_info 4 0) ok]).
  { intros ok. unfold after_open. now rewrite <- app_assoc. }
  assert (Hcount : forall ok,
             count_reads (after_open ++ [call (read_board_info 4 0) ok])
             = S (count_reads (gateway_log w))).
  { intros ok. unfold after_open. rewrite !count_reads_snoc. simpl. lia. }
  destruct (d BoardInfo after_open (read_board_info 4 0)) as [b|e'];
    simpl; (split; [apply Hlog|]); (split; [apply Hcount|]);
    intros e He; [discriminate|].
  injection He as ->.
  rewrite spec_phase_snoc. simpl.
  repeat split; auto.
  intros Hphase. unfold after_open. rewrite spec_phase_snoc. simpl.
  destruct (spec_phase (gateway_log w)); congruence.
Qed.

Lemma open_reads_identity_once_witness :
  gateway_log (exec openCanDevice driver_mute init_world)
  = [call (open_can_device 4 0) true; call (read_board_info 4 0) false] /\
  count_reads (gateway_log (exec openCanDevice driver_mute init_world)) = 1%nat /\
  spec_phase (gateway_log (exec openCanDevice driver_mute init_world)) = Open /\
  boardInfo (app (exec openCanDevice driver_mute init_world)) = None /\
  errorMessage (app (exec openCanDevice driver_mute init_world))
  = Some "讀取 Board Info 失敗: no reply".
Proof.
  destruct (open_reads_identity_once driver_mute init_world "opened" eq_refl)
    as (Hlog & Hcount & Hfail).
  destruct (Hfail "no reply" eq_refl) as (_ & Hphase & Hid & Herr).
  split; [exact Hlog|]. split; [exact Hcount|].
  split; [apply Hphase; discriminate|].
  split; [exact (Hid eq_refl)|exact Herr].
Defined.

(** C10: when [open_can_device] resolves with [s] and the identity read
    that follows is rejected with [e], the open first records [s] (the
    read runs on a state whose [errorMessage] is [s]), and the read then
    replaces it: the cells at the end are those at the start with
    [errorMessage] set to the read failure text, whatever [s] was.  The
    action text is untouched and an absent identity is still absent. *)
Theorem open_status_overwritten_by_read_failure
  (d : Driver) (w : World) (s e : string)
  (Hopen : d _ (gateway_log w) (open_can_device 4 0) = Ok s)
  (Hread : d _ (gateway_log w ++ [call (open_can_device 4 0) true])
             (read_board_info 4 0) = Err e) :
  exec openCanDevice d w
  = exec readBoardInfo d
      (mkWorld (set_errorMessage (Some s) (app w))
               (gateway_log w ++ [call (open_can_device 4 0) true])) /\
  app (exec openCanDevice d w)
  = set_errorMessage (Some ("讀取 Board Info 失敗: " ++ e)%string) (app w) /\
  errorMessage (app (exec openCanDevice d w))
  = Some ("讀取 Board Info 失敗: " ++ e)%string /\
  actionMessage (app (exec openCanDevice d w)) = actionMessage (app w) /\
  (boardInfo (app w) = None ->
   boardInfo (app (exec openCanDevice d w)) = None).
Proof.
  rewrite exec_openCanDevice, Hopen. split; [reflexivity|].
  rewrite exec_readBoardInfo. simpl. rewrite Hread. simpl.
  repeat split; auto.
Qed.

Lemma open_status_overwritten_by_read_failure_witness :
  app (exec openCanDevice driver_mute init_world)
  = set_errorMessage (Some "讀取 Board Info 失敗: no reply") init_app /\
  actionMessage (app (exec openCanDevice driver_mute init_world)) = None /\
  boardInfo (app (exec openCanDevice driver_mute init_world)) = None.
Proof.
  destruct (open_status_overwritten_by_read_failure
              driver_mute init_world "opened" "no reply" eq_refl eq_refl)
    as (_ & Happ & _ & Hact & Hid).
  split; [exact Happ|]. split; [exact Hact|exact (Hid eq_refl)].
Defined.

(** ** Transmitting *)

(** What [transmitCanData] does, by cases on the payload cell: whatever
    the cell holds, a number (zero included) or a text (the empty one
    included), is sent with exactly one [transmit_can_data] call carrying
    it; only [null] leads to no call and to the validation text in
    [errorMessage].  So the log grows if and only if the cell is not
    [null]. *)
Lemma transmit_iff_cell_not_null (d : Driver) (w : World) :
  (forall data, canMessage (app w) = Some data ->
   gateway_log (exec transmitCanData d w)
   = gateway_log w ++
     [call (transmit_can_data data 4 0 0)
           (succeeded (d _ (gateway_log w) (transmit_can_data data 4 0 0)))]) /\
  (canMessage (app w) = None ->
   gateway_log (exec transmitCanData d w) = gateway_log w /\
   errorMessage (app (exec transmitCanData d w))
   = Some "請輸入要傳送的數據。") /\
  (gateway_log (exec transmitCanData d w) <> gateway_log w <->
   canMessage (app w) <> None).
Proof.
  assert (Hsome : forall data, canMessage (app w) = Some data ->
    gateway_log (exec transmitCanData d w)
    = gateway_log w ++
      [call (transmit_can_data data 4 0 0)
            (succeeded (d _ (gateway_log w) (transmit_can_data data 4 0 0)))]).
  { intros data H. rewrite exec_transmitCanData, H. simpl.
    now destruct (d _ _ _). }
  assert (Hnone : canMessage (app w) = None ->
    exec transmitCanData d w
    = update (set_errorMessage (Some "請輸入要傳送的數據。")) w).
  { intros H. rewrite exec_transmitCanData, H. reflexivity. }
  split; [exact Hsome|]. split.
  - intros H. rewrite (Hnone H). split; reflexivity.
  - destruct (canMessage (app w)) as [data|] eqn:Hm.
    + rewrite (Hsome data eq_refl). split; intros _.
      * discriminate.
      * apply snoc_neq.
    + rewrite (Hnone eq_refl). simpl. split; intros H; now elim H.
Qed.

(** C5: the halves of the claim that hold, and the input where it fails.
    A payload of zero is sent, with one [transmit_can_data] call carrying
    it, and a payload cell that was never filled leads to no call and to
    the validation text.  But once the user has typed a number and emptied
    the field again, no payload is present, the cell holds the empty text
    and not [null], and the page still issues a [transmit_can_data] call,
    carrying the empty text; no validation text is set. *)
Theorem emptied_field_is_transmitted :
  gateway_log
    (run driver_fine init_world [InputNumber (Num 0); Click OpTransmit])
  = [call (transmit_can_data (Num 0) 4 0 0) true] /\
  (gateway_log (run driver_fine init_world [Click OpTransmit]) = [] /\
   errorMessage (app (run driver_fine init_world [Click OpTransmit]))
   = Some "請輸入要傳送的數據。") /\
  canMessage
    (app (run driver_fine init_world [InputNumber (Num 5); InputNumber (Raw "")]))
  = Some (Raw "") /\
  gateway_log
    (run driver_fine init_world
         [InputNumber (Num 5); InputNumber (Raw ""); Click OpTransmit])
  = [call (transmit_can_data (Raw "") 4 0 0) true] /\
  errorMessage
    (app (run driver_fine init_world
              [InputNumber (Num 5); InputNumber (Raw ""); Click OpTransmit]))
  = None /\
  actionMessage
    (app (run driver_fine init_world
              [InputNumber (Num 5); InputNumber (Raw ""); Click OpTransmit]))
  = Some "sent".
Proof. repeat split. Qed.

(** ** Reconfiguring *)

(** C6: with no profile selected, reconfiguring issues no gateway call and
    changes nothing but [errorMessage], which receives the validation
    text; the phase is as before.  With a profile selected, exactly one
    [reconnect_can_device] call is issued, carrying the two timing values
    of that profile, and no identity read: the log holds as many
    [read_board_info] calls as before and the identity cell is as it was. *)
Theorem reconfigure_validates_profile (d : Driver) (w : World) :
  (selectedBaud (app w) = None ->
   exec reconnectDevice d w
   = mkWorld (set_errorMessage (Some "請選擇一個波特率。") (app w))
             (gateway_log w) /\
   gateway_log (exec reconnectDevice d w) = gateway_log w /\
   errorMessage (app (exec reconnectDevice d w))
   = Some "請選擇一個波特率。" /\
   spec_phase (gateway_log (exec reconnectDevice d w))
   = spec_phase (gateway_log w)) /\
  (forall b, selectedBaud (app w) = Some b ->
   gateway_log (exec reconnectDevice d w)
   = gateway_log w ++
     [call (reconnect_can_device 4 0 0 1 (timing0 b) (timing1 b))
           (succeeded (d _ (gateway_log w)
              (reconnect_can_device 4 0 0 1 (timing0 b) (timing1 b))))] /\
   count_reads (gateway_log (exec reconnectDevice d w))
   = count_reads (gateway_log w) /\
   boardInfo (app (exec reconnectDevice d w)) = boardInfo (app w)).
Proof.
  split.
  - intros H. rewrite exec_reconnectDevice, H. repeat split.
  - intros b H. rewrite exec_reconnectDevice, H. simpl.
    destruct (d _ _ _); simpl; rewrite count_reads_snoc; simpl;
      repeat split; lia.
Qed.

Lemma reconfigure_validates_profile_witness :
  (spec_phase (gateway_log unselected_world) = Open /\
   selectedBaud (app unselected_world) = None /\
   exec reconnectDevice driver_fine unselected_world
   = mkWorld (set_errorMessage (Some "請選擇一個波特率。")
                               (app unselected_world))
             (gateway_log unselected_world)) /\
  (selectedBaud (app init_world) = Some (mkBaud "250 Kbps" 0x01 0x1C) /\
   gateway_log (exec reconnectDevice driver_fine init_world)
   = [call (reconnect_can_device 4 0 0 1 0x01 0x1C) true]).
Proof.
  split.
  - split; [reflexivity|]. split; [reflexivity|].
    exact (proj1 (proj1 (reconfigure_validates_profile driver_fine
                           unselected_world) eq_refl)).
  - split; [reflexivity|].
    exact (proj1 (proj2 (reconfigure_validates_profile driver_fine init_world)
                        (mkBaud "250 Kbps" 0x01 0x1C) eq_refl)).
Defined.

(** ** Notifications *)

(** C7: in every state, whatever its phase, a frame notification leaves
    the delivered payload in [canData] and changes nothing else; the
    gateway log, and with it the phase, is as before.  Of two frames in a
    row the later one stays. *)
Theorem frame_recorded_in_every_phase
  (d : Driver) (w : World) (payload : string) :
  canData (app (step d w (CanData payload))) = payload /\
  step d w (CanData payload)
  = mkWorld (set_canData payload (app w)) (gateway_log w) /\
  spec_phase (gateway_log (step d w (CanData payload)))
  = spec_phase (gateway_log w) /\
  (forall earlier,
   canData (app (run d w [CanData earlier; CanData payload])) = payload).
Proof. repeat split. Qed.

Lemma run_snoc (d : Driver) (w : World) (actions : list Action) (a : Action) :
  run d w (actions ++ [a]) = step d (run d w actions) a.
Proof. unfold run. rewrite fold_left_app. reflexivity. Qed.

(** C8: in every state a driver error notification leaves the delivered
    text in [errorMessage] and changes nothing else.  This holds at the
    end of any session, so also right after a foreground call that
    resolved: whatever that call had written to [errorMessage], the
    notified text replaces it. *)
Theorem driver_error_overwrites (d : Driver) (w : World) (text : string) :
  errorMessage (app (step d w (ErrorMessage text))) = Some text /\
  step d w (ErrorMessage text)
  = mkWorld (set_errorMessage (Some text) (app w)) (gateway_log w) /\
  (forall o,
   errorMessage (app (run d w [Click o; ErrorMessage text])) = Some text) /\
  (forall actions,
   errorMessage (app (run d w (actions ++ [ErrorMessage text]))) = Some text).
Proof.
  repeat split.
  intros actions. rewrite run_snoc. reflexivity.
Qed.

(** ** The baud rate table *)

Lemma step_baudRates (d : Driver) (w : World) (a : Action) :
  baudRates (app (step d w a)) = baudRates (app w).
Proof.
  destruct a as [o|payload|payload|i|n]; simpl; try reflexivity.
  - destruct o; simpl.
    + rewrite exec_openCanDevice. destruct (d _ _ _); [|reflexivity].
      rewrite exec_readBoardInfo. simpl. now destruct (d _ _ _).
    + rewrite exec_closeCanDevice. now destruct (d _ _ _).
    + rewrite exec_readBoardInfo. now destruct (d _ _ _).
    + rewrite exec_reconnectDevice.
      destruct (selectedBaud (app w)); [|reflexivity]. simpl.
      now destruct (d _ _ _).
    + rewrite exec_startReceivingData. now destruct (d _ _ _).
    + rewrite exec_stopReceivingData. now destruct (d _ _ _).
    + rewrite exec_transmitCanData.
      destruct (canMessage (app w)); [|reflexivity]. simpl.
      now destruct (d _ _ _).
  - unfold select_option. now destruct (nth_error _ _).
Qed.

Lemma run_baudRates (d : Driver) (actions : list Action) (w : World) :
  baudRates (app (run d w actions)) = baudRates (app w).
Proof.
  revert w. induction actions as [|a actions IH]; intros w; simpl.
  - reflexivity.
  - change (baudRates (app (run d (step d w a) actions)) = baudRates (app w)).
    rewrite IH. apply step_baudRates.
Qed.

(** C9: the labels of the table are pairwise distinct and every timing
    value is a byte.  Initially the selected profile is the entry
    "250 Kbps" with [timing0 = 0x01] and [timing1 = 0x1C], the only entry
    with that label.  The table never changes: after any session, under
    any driver, it is the table of the initial state. *)
Theorem catalog_fixed_and_well_formed :
  NoDup (map rate (baudRates init_app)) /\
  Forall (fun b => 0x00 <= timing0 b <= 0xFF /\ 0x00 <= timing1 b <= 0xFF)
         (baudRates init_app) /\
  selectedBaud init_app = Some (mkBaud "250 Kbps" 0x01 0x1C) /\
  filter (fun b => String.eqb (rate b) "250 Kbps") (baudRates init_app)
  = [mkBaud "250 Kbps" 0x01 0x1C] /\
  (forall d actions,
   baudRates (app (run d init_world actions)) = baudRates init_app).
Proof.
  split; [|split; [|split; [|split]]].
  - simpl. repeat (constructor; [simpl; intuition discriminate|]).
    constructor.
  - simpl. repeat (constructor; [simpl; lia|]). constructor.
  - reflexivity.
  - reflexivity.
  - intros d actions. apply run_baudRates.
Qed.

(** * Sessions

    Properties of whole sessions, proved by induction over the actions. *)

(** Case analysis on what the driver answers to the calls of a handler. *)
Ltac answer_all :=
  repeat first
    [ progress cbn [app gateway_log update]
    | rewrite exec_readBoardInfo
    | rewrite exec_openCanDevice
    | rewrite exec_closeCanDevice
    | rewrite exec_reconnectDevice
    | rewrite exec_startReceivingData
    | rewrite exec_stopReceivingData
    | rewrite exec_transmitCanData
    | match goal with
      | |- context [match ?d ?R ?l ?c with Ok _ => _ | Err _ => _ end] =>
          let E := fresh "Hanswer" in destruct (d R l c) eqn:E
      | |- context [match selectedBaud ?a with Some _ => _ | None => _ end] =>
          let E := fresh "Hsel" in destruct (selectedBaud a) eqn:E
      | |- context [match canMessage ?a with Some _ => _ | None => _ end] =>
          let E := fresh "Hmsg" in destruct (canMessage a) eqn:E
      end ].

(** A property every action preserves holds along every session. *)
Lemma run_invariant (P : World -> Prop) (d : Driver) :
  (forall w a, P w -> P (step d w a)) ->
  forall actions w, P w -> P (run d w actions).
Proof.
  intros Hstep actions.
  induction actions as [|a actions IH]; intros w Hw; simpl.
  - exact Hw.
  - apply IH, Hstep, Hw.
Qed.

(** A handler writes to the two message cells and the identity cell, and
    to nothing else. *)
Lemma handler_writes (o : Operation) (d : Driver) (w : World) :
  exists em am bi,
    app (exec (handler o) d w)
    = mkApp em am bi (baudRates (app w)) (selectedBaud (app w))
            (canData (app w)) (canMessage (app w)).
Proof.
  destruct o; cbn [handler]; answer_all;
    unfold set_boardInfo, set_errorMessage, set_actionMessage;
    cbn [errorMessage actionMessage boardInfo baudRates selectedBaud
         canData canMessage];
    try match goal with H : selectedBaud _ = _ |- _ => rewrite H end;
    try match goal with H : canMessage _ = _ |- _ => rewrite H end;
    do 3 eexists; reflexivity.
Qed.

(** ** Which cell changes through what *)

Lemma run_keeps_selectedBaud (d : Driver) (actions : list Action) (w : World) :
  forallb (fun a => negb (is_select a)) actions = true ->
  selectedBaud (app (run d w actions)) = selectedBaud (app w).
Proof.
  revert w. induction actions as [|a actions IH]; intros w H; simpl in *.
  - reflexivity.
  - apply andb_prop in H as [Ha H].
    change (selectedBaud (app (run d (step d w a) actions))
            = selectedBaud (app w)).
    rewrite (IH _ H).
    destruct a as [o| | | |]; try reflexivity; [|discriminate].
    cbn [step]. destruct (handler_writes o d w) as (em & am & bi & ->).
    reflexivity.
Qed.

Lemma run_keeps_canMessage (d : Driver) (actions : list Action) (w : World) :
  forallb (fun a => negb (is_input a)) actions = true ->
  canMessage (app (run d w actions)) = canMessage (app w).
Proof.
  revert w. induction actions as [|a actions IH]; intros w H; simpl in *.
  - reflexivity.
  - apply andb_prop in H as [Ha H].
    change (canMessage (app (run d (step d w a) actions))
            = canMessage (app w)).
    rewrite (IH _ H).
    destruct a as [o| | |i|]; try reflexivity; try discriminate.
    + cbn [step]. destruct (handler_writes o d w) as (em & am & bi & ->).
      reflexivity.
    + cbn [step app update]. unfold select_option.
      now destruct (nth_error _ _).
Qed.

Lemma run_keeps_canData (d : Driver) (actions : list Action) (w : World) :
  forallb (fun a => negb (is_frame a)) actions = true ->
  canData (app (run d w actions)) = canData (app w).
Proof.
  revert w. induction actions as [|a actions IH]; intros w H; simpl in *.
  - reflexivity.
  - apply andb_prop in H as [Ha H].
    change (canData (app (run d (step d w a) actions)) = canData (app w)).
    rewrite (IH _ H).
    destruct a as [o| | |i|]; try reflexivity; try discriminate.
    + cbn [step]. destruct (handler_writes o d w) as (em & am & bi & ->).
      reflexivity.
    + cbn [step app update]. unfold select_option.
      now destruct (nth_error _ _).
Qed.

(** X1: along a session, under any driver, the selected profile changes
    only when the user picks an option, the payload to transmit only when
    the number field changes, and the displayed frame only when a frame
    notification arrives.  In particular no button, whether its call
    resolves or not, and no error notification touches any of the three. *)
Theorem form_cells_change_only_through_their_binding
  (d : Driver) (w : World) (actions : list Action) :
  (forallb (fun a => negb (is_select a)) actions = true ->
   selectedBaud (app (run d w actions)) = selectedBaud (app w)) /\
  (forallb (fun a => negb (is_input a)) actions = true ->
   canMessage (app (run d w actions)) = canMessage (app w)) /\
  (forallb (fun a => negb (is_frame a)) actions = true ->
   canData (app (run d w actions)) = canData (app w)).
Proof.
  split; [|split].
  - apply run_keeps_selectedBaud.
  - apply run_keeps_canMessage.
  - apply run_keeps_canData.
Qed.

(** After a frame and a typed payload, the user opens, reconfigures,
    transmits and closes, and a driver error arrives: selection, payload
    and frame are as before. *)
Lemma form_cells_change_only_through_their_binding_witness :
  let w := run driver_mute init_world [CanData "ID=1"; InputNumber (Num 7)] in
  let actions :=
    [Click OpOpen; Click OpReconfigure; Click OpTransmit; Click OpClose;
     ErrorMessage "bus off"] in
  selectedBaud (app (run driver_mute w actions))
  = Some (mkBaud "250 Kbps" 0x01 0x1C) /\
  canMessage (app (run driver_mute w actions)) = Some (Num 7) /\
  canData (app (run driver_mute w actions)) = "ID=1".
Proof.
  intros w actions.
  destruct (form_cells_change_only_through_their_binding
              driver_mute w actions) as (Hsel & Hmsg & Hframe).
  split; [exact (Hsel eq_refl)|]. split; [exact (Hmsg eq_refl)|].
  exact (Hframe eq_refl).
Defined.

(** ** The selected profile *)

Lemma selection_ok_step (d : Driver) (w : World) (a : Action) :
  selection_ok w -> selection_ok (step d w a).
Proof.
  intros (Htbl & b & Hsel & Hin). unfold selection_ok.
  destruct a as [o|payload|payload|i|n]; cbn [step].
  - destruct (handler_writes o d w) as (em & am & bi & ->).
    split; [exact Htbl|]. exists b. split; [exact Hsel|exact Hin].
  - split; [exact Htbl|]. exists b. split; [exact Hsel|exact Hin].
  - split; [exact Htbl|]. exists b. split; [exact Hsel|exact Hin].
  - cbn [update app]. unfold select_option.
    destruct (nth_error (baudRates (app w)) i) as [b'|] eqn:Hnth.
    + split; [exact Htbl|]. exists b'. split; [reflexivity|].
      rewrite <- Htbl. eapply nth_error_In, Hnth.
    + split; [exact Htbl|]. exists b. split; [exact Hsel|exact Hin].
  - split; [exact Htbl|]. exists b. split; [exact Hsel|exact Hin].
Qed.

Lemma selection_ok_init : selection_ok init_world.
Proof.
  split; [reflexivity|].
  exists (mkBaud "250 Kbps" 0x01 0x1C). split; [reflexivity|].
  simpl. tauto.
Qed.

Lemma selection_ok_run (d : Driver) (actions : list Action) :
  selection_ok (run d init_world actions).
Proof.
  apply run_invariant; [apply selection_ok_step|apply selection_ok_init].
Qed.

(** X2: at every point of every session that starts from the initial
    state, under any driver, a profile is selected and it is an entry of
    the table.  So the check of [reconnectDevice] for a missing selection
    never fires there: reconfiguring always issues its gateway call, with
    the timing values of the selected entry. *)
Theorem a_listed_profile_is_always_selected
  (d : Driver) (actions : list Action) :
  exists b,
    selectedBaud (app (run d init_world actions)) = Some b /\
    In b baudRates_literal /\
    gateway_log (run d init_world (actions ++ [Click OpReconfigure]))
    = gateway_log (run d init_world actions) ++
      [call (reconnect_can_device 4 0 0 1 (timing0 b) (timing1 b))
            (succeeded
               (d _ (gateway_log (run d init_world actions))
                  (reconnect_can_device 4 0 0 1 (timing0 b) (timing1 b))))].
Proof.
  destruct (selection_ok_run d actions) as (_ & b & Hsel & Hin).
  exists b. split; [exact Hsel|]. split; [exact Hin|].
  rewrite run_snoc. cbn [step handler].
  rewrite exec_reconnectDevice, Hsel. cbn zeta.
  now destruct (d _ _ _).
Qed.

(** ** What the driver gets to see *)

Lemma listed_entry (b : BaudRate) (ok : bool) :
  In b baudRates_literal ->
  timing_listed baudRates_literal
    (call (reconnect_can_device 4 0 0 1 (timing0 b) (timing1 b)) ok) = true.
Proof.
  intros Hin. unfold baudRates_literal in Hin. simpl in Hin.
  repeat (destruct Hin as [<-|Hin]; [reflexivity|]).
  contradiction.
Qed.

Lemma forallb_snoc {A} (f : A -> bool) (l : list A) (x : A) :
  forallb f l = true -> f x = true -> forallb f (l ++ [x]) = true.
Proof.
  intros Hl Hx. rewrite forallb_app, Hl. simpl. now rewrite Hx.
Qed.

Lemma timing_listed_step (d : Driver) (w : World) (a : Action) :
  selection_ok w ->
  forallb (timing_listed baudRates_literal) (gateway_log w) = true ->
  forallb (timing_listed baudRates_literal) (gateway_log (step d w a)) = true.
Proof.
  intros (_ & b & Hsel & Hin) Hlog.
  destruct a as [o|payload|payload|i|n]; cbn [step]; try exact Hlog.
  destruct o; cbn [handler]; answer_all;
    repeat (apply forallb_snoc; [|try reflexivity]); try exact Hlog.
  all: apply listed_entry; congruence.
Qed.

(** X3: in every session that starts from the initial state, under any
    driver, each [reconnect_can_device] call that reaches the gateway
    carries the timing pair of an entry of the table, and both values are
    bytes. *)
Theorem driver_only_sees_listed_timings
  (d : Driver) (actions : list Action) :
  forallb (timing_listed baudRates_literal)
          (gateway_log (run d init_world actions)) = true.
Proof.
  refine (proj2 (run_invariant
    (fun w => selection_ok w /\
              forallb (timing_listed baudRates_literal) (gateway_log w) = true)
    d _ actions init_world _)).
  - intros w a (Hsel & Hlog). split.
    + now apply selection_ok_step.
    + now apply timing_listed_step.
  - split; [apply selection_ok_init|reflexivity].
Qed.

Lemma addressed_step (d : Driver) (w : World) (a : Action) :
  forallb addressed (gateway_log w) = true ->
  forallb addressed (gateway_log (step d w a)) = true.
Proof.
  intros Hlog.
  destruct a as [o|payload|payload|i|n]; cbn [step]; try exact Hlog.
  destruct o; cbn [handler]; answer_all;
    repeat (apply forallb_snoc; [|reflexivity]); exact Hlog.
Qed.

(** X4: in every session that starts from the initial state, under any
    driver, every call that reaches the gateway names device type 4 and
    device index 0, and where the command has them, channel 0 and the
    channel pair (0, 1): the page never addresses another device or
    channel. *)
Theorem driver_only_sees_the_one_device
  (d : Driver) (actions : list Action) :
  forallb addressed (gateway_log (run d init_world actions)) = true.
Proof.
  apply (run_invariant
           (fun w => forallb addressed (gateway_log w) = true)).
  - intros w a. apply addressed_step.
  - reflexivity.
Qed.

(** ** The identity on display *)

Lemma identity_known_snoc (log : list Call) (c : Call) :
  identity_known (log ++ [c]) = identity_step (identity_known log) c.
Proof. unfold identity_known. rewrite fold_left_app. reflexivity. Qed.

Lemma identity_step_ok (d : Driver) (w : World) (a : Action) :
  is_some (boardInfo (app w)) = identity_known (gateway_log w) ->
  is_some (boardInfo (app (step d w a)))
  = identity_known (gateway_log (step d w a)).
Proof.
  intros H.
  destruct a as [o|payload|payload|i|n]; cbn [step]; try exact H.
  - destruct o; cbn [handler]; answer_all;
      rewrite ?identity_known_snoc; cbn [identity_step]; exact H || reflexivity.
  - cbn [update app gateway_log]. unfold select_option.
    now destruct (nth_error _ _).
Qed.

(** X5: in every session that starts from the initial state, under any
    driver, an identity is on display exactly when the last resolved call
    among the identity reads and the closes is an identity read.  So a
    rejected read keeps the identity shown before, a rejected close keeps
    it too, and nothing but a resolved close removes it. *)
Theorem identity_shown_iff_last_read_resolved
  (d : Driver) (actions : list Action) :
  is_some (boardInfo (app (run d init_world actions)))
  = identity_known (gateway_log (run d init_world actions)).
Proof.
  apply (run_invariant
           (fun w => is_some (boardInfo (app w))
                     = identity_known (gateway_log w))).
  - intros w a. apply identity_step_ok.
  - reflexivity.
Qed.

(** ** Rejected calls *)

(** X6: when the driver rejects whatever it is asked in the current state,
    an operation changes no cell but [errorMessage], which receives a
    text; the phase read off the log is as before, and at most one call
    was issued.  This covers the seven buttons, those that fail locally
    included. *)
Theorem rejected_operation_changes_only_errorMessage
  (o : Operation) (d : Driver) (w : World)
  (Hrejects : forall R (c : Command R),
      succeeded (d R (gateway_log w) c) = false) :
  (exists msg,
     app (exec (handler o) d w) = set_errorMessage (Some msg) (app w)) /\
  spec_phase (gateway_log (exec (handler o) d w))
  = spec_phase (gateway_log w) /\
  (List.length (gateway_log (exec (handler o) d w))
   <= S (List.length (gateway_log w)))%nat.
Proof.
  destruct o; cbn [handler]; answer_all;
    try match goal with
        | H : d ?R (gateway_log w) ?c = Ok _ |- _ =>
            pose proof (Hrejects R c) as Hno; rewrite H in Hno; discriminate
        end;
    (split; [eexists; reflexivity|]);
    rewrite ?spec_phase_snoc, ?length_app; cbn [spec_transition List.length];
    (split; [reflexivity|lia]).
Qed.

Lemma rejected_operation_changes_only_errorMessage_witness :
  app (exec (handler OpClose) driver_down receiving_world)
  = set_errorMessage (Some "關閉 CAN 裝置失敗: device not found")
                     (app receiving_world) /\
  spec_phase (gateway_log (exec (handler OpClose) driver_down receiving_world))
  = Receiving.
Proof.
  destruct (rejected_operation_changes_only_errorMessage
              OpClose driver_down receiving_world (fun _ _ => eq_refl))
    as (_ & Hphase & _).
  split; [reflexivity|exact Hphase].
Defined.

(** ** Messages stay *)

Lemma messages_stay_step (d : Driver) (w : World) (a : Action) :
  (is_some (errorMessage (app w)) = true ->
   is_some (errorMessage (app (step d w a))) = true) /\
  (is_some (actionMessage (app w)) = true ->
   is_some (actionMessage (app (step d w a))) = true).
Proof.
  destruct a as [o|payload|payload|i|n]; cbn [step].
  - destruct o; cbn [handler]; answer_all; split; intros H;
      exact H || reflexivity.
  - split; intros H; exact H || reflexivity.
  - split; intros H; exact H.
  - cbn [update app]. unfold select_option.
    destruct (nth_error _ _); split; intros H; exact H.
  - split; intros H; exact H.
Qed.

(** X7: no action ever empties a message cell.  Once an error text is on
    display, an error text is on display at every later point of the
    session, whatever resolves afterwards; the same holds for the action
    text. *)
Theorem messages_are_never_cleared
  (d : Driver) (w : World) (actions : list Action) :
  (is_some (errorMessage (app w)) = true ->
   is_some (errorMessage (app (run d w actions))) = true) /\
  (is_some (actionMessage (app w)) = true ->
   is_some (actionMessage (app (run d w actions))) = true).
Proof.
  revert w. induction actions as [|a actions IH]; intros w.
  - split; intros H; exact H.
  - change (run d w (a :: actions)) with (run d (step d w a) actions).
    destruct (IH (step d w a)) as (IHe & IHa).
    destruct (messages_stay_step d w a) as (He & Ha).
    split; intros H; [apply IHe, He, H|apply IHa, Ha, H].
Qed.

(** A rejected transmission leaves an error text; the transmission that
    resolves next and the close that resolves after it do not remove an
    error text from the display. *)
Lemma messages_are_never_cleared_witness :
  let w := exec transmitCanData driver_down
                (run driver_fine init_world [InputNumber (Num 5)]) in
  errorMessage (app w) = Some "傳送 CAN 數據失敗: device not found" /\
  is_some (errorMessage
             (app (run driver_fine w [Click OpTransmit; Click OpReadIdentity])))
  = true.
Proof.
  intros w. split; [reflexivity|].
  exact (proj1 (messages_are_never_cleared driver_fine w
                  [Click OpTransmit; Click OpReadIdentity]) eq_refl).
Defined.

(** ** Frames and foreground calls *)

Lemma frame_commutes_step (d : Driver) (w : World) (p : string) (a : Action) :
  is_frame a = false ->
  step d (step d w (CanData p)) a = step d (step d w a) (CanData p).
Proof.
  intros Ha. destruct a as [o|payload|payload|i|n]; cbn [step];
    try reflexivity; try discriminate.
  - destruct o; cbn [handler];
      rewrite ?exec_openCanDevice, ?exec_closeCanDevice, ?exec_readBoardInfo,
        ?exec_reconnectDevice, ?exec_startReceivingData,
        ?exec_stopReceivingData, ?exec_transmitCanData;
      cbn [app gateway_log update on_can_data set_canData
           selectedBaud canMessage];
      answer_all; reflexivity.
  - unfold update, on_can_data, select_option. cbn [app gateway_log].
    change (baudRates (set_canData p (app w))) with (baudRates (app w)).
    now destruct (nth_error _ _).
Qed.

(** X8: a frame notification may arrive at any point of a stretch of
    actions that holds no other frame: before it, after it or anywhere in
    between, the session ends in the same state, with the same gateway
    log.  In particular the calls a button issues and what they write do
    not depend on the frame on display. *)
Theorem frame_arrival_time_is_immaterial
  (d : Driver) (w : World) (p : string) (before after : list Action) :
  forallb (fun a => negb (is_frame a)) (before ++ after) = true ->
  run d w (before ++ CanData p :: after)
  = run d w (CanData p :: before ++ after) /\
  run d w (before ++ CanData p :: after)
  = run d w (before ++ after ++ [CanData p]).
Proof.
  intros H. rewrite forallb_app in H. apply andb_prop in H as [Hb Ha].
  assert (Hfront : forall l w0,
             forallb (fun a => negb (is_frame a)) l = true ->
             run d w0 (CanData p :: l) = run d w0 (l ++ [CanData p])).
  { induction l as [|a l IH]; intros w0 Hl; [reflexivity|].
    simpl in Hl. apply andb_prop in Hl as [Hhd Hl].
    change (run d w0 (CanData p :: a :: l))
      with (run d (step d (step d w0 (CanData p)) a) l).
    rewrite frame_commutes_step by now destruct (is_frame a).
    change (run d w0 ((a :: l) ++ [CanData p]))
      with (run d (step d w0 a) (l ++ [CanData p])).
    rewrite <- IH by exact Hl. reflexivity. }
  assert (Hsplit : forall l1 l2 w0, run d w0 (l1 ++ l2) = run d (run d w0 l1) l2).
  { intros. unfold run. apply fold_left_app. }
  split.
  - rewrite Hsplit.
    rewrite (Hfront (before ++ after)) by (rewrite forallb_app, Hb, Ha; reflexivity).
    rewrite <- app_assoc, Hsplit. rewrite <- (Hfront after) by exact Ha.
    reflexivity.
  - rewrite Hsplit, (Hfront after) by exact Ha. rewrite <- Hsplit.
    reflexivity.
Qed.

Lemma frame_arrival_time_is_immaterial_witness :
  run driver_mute init_world
      [Click OpOpen; CanData "ID=9"; InputNumber (Num 3); Click OpTransmit]
  = run driver_mute init_world
      [CanData "ID=9"; Click OpOpen; InputNumber (Num 3); Click OpTransmit] /\
  run driver_mute init_world
      [Click OpOpen; CanData "ID=9"; InputNumber (Num 3); Click OpTransmit]
  = run driver_mute init_world
      [Click OpOpen; InputNumber (Num 3); Click OpTransmit; CanData "ID=9"].
Proof.
  exact (frame_arrival_time_is_immaterial driver_mute init_world "ID=9"
           [Click OpOpen] [InputNumber (Num 3); Click OpTransmit] eq_refl).
Defined.

(** ** How many calls a session issues *)

Lemma issued_by_step (d : Driver) (w : World) (a : Action) :
  exists issued,
    gateway_log (step d w a) = gateway_log w ++ issued /\
    (List.length issued <= if is_click a then 2 else 0)%nat.
Proof.
  destruct a as [o|payload|payload|i|n]; cbn [step is_click].
  - destruct o; cbn [handler]; answer_all; rewrite <- ?app_assoc;
      first [ eexists; split; [reflexivity|simpl; lia]
            | exists []; split; [now rewrite app_nil_r|simpl; lia] ].
  - exists []. split; [now rewrite app_nil_r|reflexivity].
  - exists []. split; [now rewrite app_nil_r|reflexivity].
  - exists []. split; [now rewrite app_nil_r|reflexivity].
  - exists []. split; [now rewrite app_nil_r|reflexivity].
Qed.

(** X9: a session only adds to the gateway log, and it adds at most two
    calls per button pressed; notifications, selections and typed numbers
    add none.  So a session without a button press issues no call at
    all. *)
Theorem at_most_two_calls_per_click
  (d : Driver) (w : World) (actions : list Action) :
  exists issued,
    gateway_log (run d w actions) = gateway_log w ++ issued /\
    (List.length issued <= 2 * clicks actions)%nat.
Proof.
  revert w. induction actions as [|a actions IH]; intros w.
  - exists []. split; [now rewrite app_nil_r|simpl; lia].
  - change (run d w (a :: actions)) with (run d (step d w a) actions).
    destruct (IH (step d w a)) as (rest & Hrest & Hlen).
    destruct (issued_by_step d w a) as (first & Hfirst & Hlen1).
    exists (first ++ rest). split.
    + rewrite Hrest, Hfirst, app_assoc. reflexivity.
    + rewrite length_app. unfold clicks in *. simpl.
      destruct (is_click a); simpl; lia.
Qed.

(** ** What a button sends *)

(** X10: transmitting sends what the number field's binding stored last.
    After the field changed and the binding stored [v] (the double parsed
    from the text, or the text itself when it does not parse, as the empty
    text of an emptied field), whatever happens next short of another
    change of the field (buttons pressed, calls resolved or rejected,
    notifications, selections), the transmit button issues exactly one
    [transmit_can_data] call, and it carries [v]. *)
Theorem transmit_sends_the_value_stored_last
  (d : Driver) (w : World) (v : FieldValue) (actions : list Action)
  (Hnone : forallb (fun a => negb (is_input a)) actions = true) :
  gateway_log (run d w (InputNumber v :: actions ++ [Click OpTransmit]))
  = gateway_log (run d w (InputNumber v :: actions)) ++
    [call (transmit_can_data v 4 0 0)
          (succeeded
             (d _ (gateway_log (run d w (InputNumber v :: actions)))
                (transmit_can_data v 4 0 0)))].
Proof.
  change (InputNumber v :: actions ++ [Click OpTransmit])
    with ((InputNumber v :: actions) ++ [Click OpTransmit]).
  rewrite run_snoc. cbn [step handler].
  assert (Hmsg : canMessage (app (run d w (InputNumber v :: actions)))
                 = Some v).
  { change (run d w (InputNumber v :: actions))
      with (run d (step d w (InputNumber v)) actions).
    rewrite run_keeps_canMessage by exact Hnone. reflexivity. }
  rewrite exec_transmitCanData, Hmsg. cbn zeta.
  now destruct (d _ _ _).
Qed.

(** A fraction is sent as it was stored, also after a rejected open, a
    frame and a selection. *)
Lemma transmit_sends_the_value_stored_last_witness :
  gateway_log
    (run driver_down init_world
         [InputNumber (Num 1.5); Click OpOpen; CanData "ID=2"; SelectBaud 3;
          Click OpTransmit])
  = [call (open_can_device 4 0) false;
     call (transmit_can_data (Num 1.5) 4 0 0) false].
Proof.
  exact (transmit_sends_the_value_stored_last driver_down init_world
           (Num 1.5) [Click OpOpen; CanData "ID=2"; SelectBaud 3] eq_refl).
Defined.

(** X11: reconfiguring sends the timing of the option picked last.  After
    the user picks the option at position [i] of the table, whatever
    happens next short of another pick, the reconfigure button issues
    exactly one [reconnect_can_device] call, and it carries the two timing
    values of the entry at position [i]. *)
Theorem reconfigure_sends_the_option_picked_last
  (d : Driver) (w : World) (i : nat) (b : BaudRate) (actions : list Action)
  (Hentry : nth_error (baudRates (app w)) i = Some b)
  (Hnone : forallb (fun a => negb (is_select a)) actions = true) :
  gateway_log (run d w (SelectBaud i :: actions ++ [Click OpReconfigure]))
  = gateway_log (run d w (SelectBaud i :: actions)) ++
    [call (reconnect_can_device 4 0 0 1 (timing0 b) (timing1 b))
          (succeeded
             (d _ (gateway_log (run d w (SelectBaud i :: actions)))
                (reconnect_can_device 4 0 0 1 (timing0 b) (timing1 b))))].
Proof.
  change (SelectBaud i :: actions ++ [Click OpReconfigure])
    with ((SelectBaud i :: actions) ++ [Click OpReconfigure]).
  rewrite run_snoc. cbn [step handler].
  assert (Hsel : selectedBaud (app (run d w (SelectBaud i :: actions)))
                 = Some b).
  { change (run d w (SelectBaud i :: actions))
      with (run d (step d w (SelectBaud i)) actions).
    rewrite run_keeps_selectedBaud by exact Hnone.
    cbn [step update app]. unfold select_option. rewrite Hentry.
    reflexivity. }
  rewrite exec_reconnectDevice, Hsel. cbn zeta.
  now destruct (d _ _ _).
Qed.

(** Picking "1000 Kbps", the option at position 13, then opening and
    typing a number: the reconfiguration carries 0x00 and 0x14. *)
Lemma reconfigure_sends_the_option_picked_last_witness :
  gateway_log
    (run driver_fine init_world
         [SelectBaud 13; Click OpOpen; InputNumber (Num 1); Click OpReconfigure])
  = [call (open_can_device 4 0) true; call (read_board_info 4 0) true;
     call (reconnect_can_device 4 0 0 1 0x00 0x14) true].
Proof.
  exact (reconfigure_sends_the_option_picked_last driver_fine init_world 13
           (mkBaud "1000 Kbps" 0x00 0x14) [Click OpOpen; InputNumber (Num 1)]
           eq_refl eq_refl).
Defined.

(** * The earlier page and the current one *)

Ltac legacy_unfold :=
  unfold Legacy.handler, Legacy.openCanDevice, Legacy.closeCanDevice,
    Legacy.readBoardInfo, Legacy.reconnectDevice, Legacy.startReceivingData,
    Legacy.stopReceivingData, Legacy.invoke, Legacy.alert,
    Legacy.console_error, Legacy.set_boardInfo, Legacy.on_can_data,
    Legacy.select_option, Legacy.set_canData, Legacy.set_selectedBaud,
    legacy_driver.

(** Case analysis on the answers of a driver, computing in between. *)
Ltac both_answer :=
  repeat first
    [ progress cbn
    | rewrite map_app
    | rewrite exec_readBoardInfo
    | match goal with
      | |- context [match ?d ?R ?l ?c with Ok _ => _ | Err _ => _ end] =>
          let E := fresh "Hanswer" in destruct (d R l c) eqn:E
      end ].

Lemma agree_step (d : Driver) (lw : Legacy.World) (w : World)
  (a : Legacy.Action) :
  agree lw w ->
  agree (Legacy.step (legacy_driver d) lw a) (step d w (current_action a)).
Proof.
  destruct lw as [[bi tbl sel cd] al co lg].
  destruct w as [[em am bi' tbl' sel' cd' cm] lg'].
  unfold agree. cbn. intros (<- & <- & <- & <- & <-).
  destruct a as [o|p|i]; cbn [Legacy.step step current_action].
  - destruct o; cbn [current_operation handler Legacy.handler];
      rewrite ?exec_openCanDevice, ?exec_closeCanDevice, ?exec_readBoardInfo,
        ?exec_reconnectDevice, ?exec_startReceivingData,
        ?exec_stopReceivingData;
      legacy_unfold; try destruct sel as [b|]; both_answer;
      repeat split; reflexivity.
  - repeat split; reflexivity.
  - legacy_unfold. unfold update, select_option. cbn.
    destruct (nth_error tbl i); cbn; repeat split; reflexivity.
Qed.

(** X12: the earlier page and the current page run the same session
    alike.  Started from their initial states and given the same buttons,
    frames and selections, with the driver answering both the same way,
    they end with the same identity, table, selection and frame, and they
    have issued the same calls in the same order with the same outcomes,
    up to the channel pair that only the earlier [open_can_device]
    names. *)
Theorem earlier_page_agrees_with_current
  (d : Driver) (actions : list Legacy.Action) :
  agree (Legacy.run (legacy_driver d) Legacy.init_world actions)
        (run d init_world (map current_action actions)).
Proof.
  assert (H : agree Legacy.init_world init_world) by (repeat split).
  revert H. generalize Legacy.init_world init_world.
  induction actions as [|a actions IH]; intros lw w H.
  - exact H.
  - cbn [map].
    change (agree (Legacy.run (legacy_driver d)
                     (Legacy.step (legacy_driver d) lw a) actions)
                  (run d (step d w (current_action a))
                       (map current_action actions))).
    apply IH, agree_step, H.
Qed.

(** ** What the earlier page reports *)

Lemma legacy_report_step (d : Legacy.Driver) (w : Legacy.World)
  (a : Legacy.Action) :
  is_some (Legacy.selectedBaud (Legacy.page w)) = true /\
  List.length (Legacy.console w)
  = List.length (filter Legacy.rejected (Legacy.gateway_log w)) /\
  List.length (Legacy.alerts w)
  = List.length (filter Legacy.alerting (Legacy.gateway_log w)) ->
  is_some (Legacy.selectedBaud (Legacy.page (Legacy.step d w a))) = true /\
  List.length (Legacy.console (Legacy.step d w a))
  = List.length (filter Legacy.rejected
                        (Legacy.gateway_log (Legacy.step d w a))) /\
  List.length (Legacy.alerts (Legacy.step d w a))
  = List.length (filter Legacy.alerting
                        (Legacy.gateway_log (Legacy.step d w a))).
Proof.
  destruct w as [[bi tbl sel cd] al co lg]. cbn.
  intros (Hsel & Hco & Hal).
  destruct sel as [b|]; [clear Hsel|discriminate].
  destruct a as [o|p|i]; cbn [Legacy.step].
  - destruct o; legacy_unfold; both_answer;
      rewrite ?filter_app, ?length_app; cbn;
      rewrite ?length_app; cbn; repeat split; lia.
  - cbn. repeat split; assumption.
  - legacy_unfold. cbn. destruct (nth_error tbl i); cbn;
      repeat split; assumption.
Qed.

(** X13: in every session of the earlier page that starts from its
    initial state, under any driver, the console holds one line per
    rejected call, and the page has shown one alert per call that was
    rejected or that resolved with a status text; an identity read and a
    start of the reception that resolved are the only calls without an
    alert. *)
Theorem earlier_page_reports_every_rejection
  (d : Legacy.Driver) (actions : list Legacy.Action) :
  List.length (Legacy.console (Legacy.run d Legacy.init_world actions))
  = List.length
      (filter Legacy.rejected
              (Legacy.gateway_log (Legacy.run d Legacy.init_world actions))) /\
  List.length (Legacy.alerts (Legacy.run d Legacy.init_world actions))
  = List.length
      (filter Legacy.alerting
              (Legacy.gateway_log (Legacy.run d Legacy.init_world actions))).
Proof.
  assert (H : is_some (Legacy.selectedBaud (Legacy.page Legacy.init_world))
              = true /\
              List.length (Legacy.console Legacy.init_world)
              = List.length (filter Legacy.rejected
                               (Legacy.gateway_log Legacy.init_world)) /\
              List.length (Legacy.alerts Legacy.init_world)
              = List.length (filter Legacy.alerting
                               (Legacy.gateway_log Legacy.init_world)))
    by (repeat split).
  revert H. generalize Legacy.init_world.
  induction actions as [|a actions IH]; intros w H.
  - exact (proj2 H).
  - change (Legacy.run d w (a :: actions))
      with (Legacy.run d (Legacy.step d w a) actions).
    apply IH, legacy_report_step, H.
Qed.

(** X14: when the driver rejects whatever it is asked in the current
    state, a button of the earlier page changes no cell and shows exactly
    one alert, whose text is one of the seven fixed failure texts: the
    error text of the driver is not shown to the user. *)
Theorem earlier_page_alerts_a_fixed_text
  (o : Legacy.Operation) (d : Legacy.Driver) (w : Legacy.World)
  (Hrejects : forall R (c : Legacy.Command R),
      succeeded (d R (Legacy.gateway_log w) c) = false) :
  Legacy.page (Legacy.handler o d w) = Legacy.page w /\
  exists text,
    In text Legacy.failure_texts /\
    Legacy.alerts (Legacy.handler o d w) = Legacy.alerts w ++ [text].
Proof.
  destruct w as [[bi tbl sel cd] al co lg]. cbn in Hrejects.
  destruct o; legacy_unfold; try destruct sel as [b|]; both_answer;
    try match goal with
        | H : d ?R lg ?c = Ok _ |- _ =>
            pose proof (Hrejects R c) as Hno; rewrite H in Hno; discriminate
        end;
    (split; [reflexivity|]); eexists; (split; [|reflexivity]);
    unfold Legacy.failure_texts; cbn; tauto.
Qed.

Lemma earlier_page_alerts_a_fixed_text_witness :
  Legacy.alerts
    (Legacy.handler Legacy.OpOpen (fun _ _ _ => Err "device not found")
                    Legacy.init_world)
  = ["開啟 CAN 裝置失敗。"] /\
  Legacy.console
    (Legacy.handler Legacy.OpOpen (fun _ _ _ => Err "device not found")
                    Legacy.init_world)
  = [("開啟 CAN 裝置錯誤:", "device not found")] /\
  Legacy.page
    (Legacy.handler Legacy.OpOpen (fun _ _ _ => Err "device not found")
                    Legacy.init_world)
  = Legacy.page Legacy.init_world.
Proof.
  split; [reflexivity|]. split; [reflexivity|].
  exact (proj1 (earlier_page_alerts_a_fixed_text Legacy.OpOpen
                  (fun _ _ _ => Err "device not found") Legacy.init_world
                  (fun _ _ => eq_refl))).
Defined.
